(** * Hexa-Stock: stock-movement reconciliation and reporting core

    A shallow embedding of [gestor_estoque.py] (class [App]).  The remote
    spreadsheet is a record of three worksheets whose cells are the
    strings the API hands back; the pandas projections are lists of
    records; [datetime.now()] is a clock that is consumed one reading at a
    time; every call of the spreadsheet client is appended to a log.

    Numeric cells are modelled as integers ([Z]): fractional quantities
    and ids are outside the model.  Strings are byte strings, so
    [str.isdigit] is the ASCII test. *)

From Stdlib Require Import ZArith Lia Bool Ascii String.
From stdpp Require Import base list sorting.

Local Open Scope Z_scope.
Local Open Scope string_scope.
Local Open Scope list_scope.

(** ** Python primitives *)

Module Py.

Definition is_digit (c : ascii) : bool :=
  let n := nat_of_ascii c in (48 <=? n)%nat && (n <=? 57)%nat.

Definition digit_val (c : ascii) : Z := Z.of_nat (nat_of_ascii c) - 48.

Fixpoint all_digits (s : string) : bool :=
  match s with
  | EmptyString => true
  | String c r => is_digit c && all_digits r
  end.

(** [str.isdigit()]: the string is not empty and every character is a
    digit. *)
Definition isdigit (s : string) : bool :=
  match s with
  | EmptyString => false
  | _ => all_digits s
  end.

Fixpoint digits_value (acc : Z) (s : string) : Z :=
  match s with
  | EmptyString => acc
  | String c r => digits_value (acc * 10 + digit_val c) r
  end.

Definition is_space (c : ascii) : bool :=
  let n := nat_of_ascii c in
  (n =? 32)%nat || ((9 <=? n)%nat && (n <=? 13)%nat)
  || ((28 <=? n)%nat && (n <=? 31)%nat).

Fixpoint lstrip (s : string) : string :=
  match s with
  | String c r => if is_space c then lstrip r else s
  | EmptyString => EmptyString
  end.

(** [str.rstrip()]: a character goes when it is white space and all
    that follows it has gone. *)
Fixpoint rstrip (s : string) : string :=
  match s with
  | EmptyString => EmptyString
  | String c r =>
      match rstrip r with
      | EmptyString => if is_space c then EmptyString else String c EmptyString
      | r' => String c r'
      end
  end.

(** [str.strip()] *)
Definition strip (s : string) : string := rstrip (lstrip s).

(** Digits of an integer literal: groups of digits separated by single
    underscores. *)
Fixpoint literal_digits (after_digit : bool) (acc : Z) (s : string) : option Z :=
  match s with
  | EmptyString => if after_digit then Some acc else None
  | String c r =>
      if is_digit c then literal_digits true (acc * 10 + digit_val c) r
      else if (Ascii.eqb c "_" && after_digit)%bool then literal_digits false acc r
      else None
  end.

(** [int(s)] on a string; [None] stands for [ValueError]. *)
Definition int (s : string) : option Z :=
  match strip s with
  | String "-" r => option_map Z.opp (literal_digits false 0 r)
  | String "+" r => literal_digits false 0 r
  | r => literal_digits false 0 r
  end.

Fixpoint pos_digits (fuel : nat) (p : positive) (acc : string) : string :=
  match fuel with
  | O => acc
  | S fuel' =>
      let d := ascii_of_nat (48 + Z.to_nat (Z.pos p mod 10)) in
      match Z.pos p / 10 with
      | Z.pos q => pos_digits fuel' q (String d acc)
      | _ => String d acc
      end
  end.

(** [str(n)] for an integer. *)
Definition str (z : Z) : string :=
  match z with
  | Z0 => "0"
  | Z.pos p => pos_digits (Pos.to_nat p) p ""
  | Z.neg p => String "-" (pos_digits (Pos.to_nat p) p "")
  end.

(** [max(xs, default=d)] *)
Definition max_default (d : Z) (xs : list Z) : Z :=
  match xs with
  | [] => d
  | x :: r => fold_left Z.max r x
  end.

End Py.

(** ** The spreadsheet client (gspread), as the program uses it *)

(** A Python value that the program puts in a row. *)
Inductive value := VInt (z : Z) | VStr (s : string).

Definition render (v : value) : string :=
  match v with VInt z => Py.str z | VStr s => s end.

(** What [get_all_records] hands back for a cell: an integer where the
    text reads as one, the text itself otherwise. *)
Definition numericise (s : string) : value :=
  match Py.int s with Some z => VInt z | None => VStr s end.

(** A worksheet: its data rows, top to bottom.  Row 1 of the sheet is the
    fixed header, so data row [i] (from 0) is sheet row [i + 2]. *)
Abbreviation sheet := (list (list string)).

Inductive sheet_name := Equipamentos | Movimentacoes | MovSetores.

Definition cell (col : nat) (row : list string) : string :=
  default "" (row !! (col - 1)%nat).

Definition pad_to {A} (n : nat) (d : A) (l : list A) : list A :=
  l ++ replicate (n - length l) d.

(** Writing column [c] (1-based) of a row; a write right of the last
    cell fills the gap with blanks. *)
Definition set_in_row (c : nat) (v : string) (row : list string) : list string :=
  <[(c - 1)%nat := v]> (pad_to c "" row).

(** Writing a cell of sheet row [r] (1-based, header included), column
    [c].  A write below the last row fills the gap with blank rows; the
    header row is not part of the model. *)
Definition set_cell (r c : nat) (v : string) (sh : sheet) : sheet :=
  match r with
  | S (S i) =>
      let sh' := pad_to (S i) [] sh in
      <[i := set_in_row c v (default [] (sh' !! i))]> sh'
  | _ => sh
  end.

(** Writing the cells [A..] of sheet row [r] from a list of values. *)
Definition set_row (r : nat) (vs : list string) (sh : sheet) : sheet :=
  match r with
  | S (S i) =>
      let sh' := pad_to (S i) [] sh in
      let row := default [] (sh' !! i) in
      <[i := vs ++ drop (length vs) row]> sh'
  | _ => sh
  end.

Fixpoint drop_blank_prefix (l : list string) : list string :=
  match l with
  | s :: r => if String.eqb s "" then drop_blank_prefix r else l
  | [] => []
  end.

(** [col_values(c)[1:]]: the column below the header, up to its last
    cell that is not blank. *)
Definition column (c : nat) (sh : sheet) : list string :=
  reverse (drop_blank_prefix (reverse (map (cell c) sh))).

Inductive api_call :=
  | ColValues (sh : sheet_name) (col : nat)
  | GetAllRecords (sh : sheet_name)
  | AppendRow (sh : sheet_name) (row : list value)
  | AppendRows (sh : sheet_name) (rows : list (list value))
  | UpdateCell (sh : sheet_name) (r c : nat) (v : value)
  | UpdateRange (sh : sheet_name) (r : nat) (row : list value)
  | BatchUpdate (sh : sheet_name) (cells : list (nat * nat * value)).

(** ** Dates *)

Module Date.

Local Open Scope Z_scope.

(** A pandas [Timestamp], in whole seconds since 1970-01-01 00:00:00. *)
Definition Timestamp := Z.

Definition is_leap (y : Z) : bool :=
  ((y mod 4 =? 0) && negb (y mod 100 =? 0)) || (y mod 400 =? 0).

Definition days_in_month (y m : Z) : Z :=
  if m =? 2 then (if is_leap y then 29 else 28)
  else if (m =? 4) || (m =? 6) || (m =? 9) || (m =? 11) then 30
  else 31.

(** Days from 1970-01-01 to the civil date [y-m-d]. *)
Definition days_from_civil (y m d : Z) : Z :=
  let y' := if m <=? 2 then y - 1 else y in
  let era := y' / 400 in
  let yoe := y' - era * 400 in
  let mp := if m <=? 2 then m + 9 else m - 3 in
  let doy := (153 * mp + 2) / 5 + d - 1 in
  let doe := yoe * 365 + yoe / 4 - yoe / 100 + doy in
  era * 146097 + doe - 719468.

Definition seconds_per_day : Z := 86400.

(** The range of a [Timestamp] (whole seconds inside it). *)
Definition in_bounds (t : Z) : bool :=
  (-9223372036 <=? t) && (t <=? 9223372036).

Definition make (y m d hh mm ss : Z) : option Timestamp :=
  if (1 <=? m) && (m <=? 12) && (1 <=? d) && (d <=? days_in_month y m)
     && (hh <=? 23) && (mm <=? 59) && (ss <=? 59)
  then
    let t := days_from_civil y m d * seconds_per_day + hh * 3600 + mm * 60 + ss in
    if in_bounds t then Some t else None
  else None.

(** A field of [lo] to [hi] digits, as many as there are. *)
Fixpoint take_digits (hi : nat) (s : string) : string * string :=
  match hi, s with
  | S n, String c r =>
      if Py.is_digit c then let '(d, rest) := take_digits n r in (String c d, rest)
      else (EmptyString, s)
  | _, _ => (EmptyString, s)
  end.

Definition field (lo hi : nat) (s : string) : option (Z * string) :=
  let '(d, rest) := take_digits hi s in
  if (lo <=? String.length d)%nat then Some (Py.digits_value 0 d, rest) else None.

Definition lit (c : ascii) (s : string) : option string :=
  match s with
  | String c' r => if Ascii.eqb c c' then Some r else None
  | EmptyString => None
  end.

(** The day, month and year of a text in the format [%d/%m/%Y]. *)
Definition campos_dmy (s : string) : option (Z * Z * Z) :=
  '(d, s) ← field 1 2 s; s ← lit "/" s;
  '(m, s) ← field 1 2 s; s ← lit "/" s;
  '(y, s) ← field 4 4 s;
  match s with
  | EmptyString => Some (d, m, y)
  | _ => None
  end.

(** [pd.to_datetime(s, format='%d/%m/%Y')]; [None] stands for
    [ValueError]. *)
Definition parse_dmy (s : string) : option Timestamp :=
  '(d, m, y) ← campos_dmy s; make y m d 0 0 0.

(** [pd.to_datetime(s, format='%d-%m-%Y %H:%M:%S', errors='coerce')];
    [None] stands for [NaT]. *)
Definition parse_stamp (s : string) : option Timestamp :=
  '(d, s) ← field 1 2 s; s ← lit "-" s;
  '(m, s) ← field 1 2 s; s ← lit "-" s;
  '(y, s) ← field 4 4 s; s ← lit " " s;
  '(hh, s) ← field 1 2 s; s ← lit ":" s;
  '(mm, s) ← field 1 2 s; s ← lit ":" s;
  '(ss, s) ← field 1 2 s;
  match s with
  | EmptyString => make y m d hh mm ss
  | _ => None
  end.

(** [t + pd.Timedelta(days=1, seconds=-1)] *)
Definition end_of_day (t : Timestamp) : Timestamp := t + (seconds_per_day - 1).

End Date.

(** ** The projected tables ([refresh_dataframes]) *)

(** [pd.to_numeric(v, errors='coerce')]; [None] stands for [NaN]. *)
Definition to_numeric (v : value) : option Z :=
  match v with VInt z => Some z | VStr _ => None end.

(** [pd.to_datetime(v, format='%d-%m-%Y %H:%M:%S', errors='coerce')] *)
Definition to_datetime (v : value) : option Date.Timestamp :=
  match v with VStr s => Date.parse_stamp s | VInt _ => None end.

Definition record_cell (col : nat) (row : list string) : value :=
  numericise (cell col row).

Module Equip.
Record t := mk {
  id : Z; nome : value; numero_serie : value; descricao : value;
  quantidade : Z; status : value; data_cadastro : value;
  estoque_minimo : Z; categoria : value }.

(** Columns A..I of the sheet; [id], [quantidade] and [estoque_minimo]
    go through [to_numeric(..., errors='coerce').fillna(1)]. *)
Definition project (row : list string) : t :=
  {| id := default 1 (to_numeric (record_cell 1 row));
     nome := record_cell 2 row;
     numero_serie := record_cell 3 row;
     descricao := record_cell 4 row;
     quantidade := default 1 (to_numeric (record_cell 5 row));
     status := record_cell 6 row;
     data_cadastro := record_cell 7 row;
     estoque_minimo := default 1 (to_numeric (record_cell 8 row));
     categoria := record_cell 9 row |}.
End Equip.

Module Mov.
Record t := mk {
  id_movimentacao : option Z; id_equipamento_fk : option Z;
  tipo_movimentacao : value; quantidade_movida : value;
  destino_origem : value; solicitante : value; chamado : value;
  responsavel_movimentacao : value; data_movimentacao : value;
  motivo_laudo : value; data_movimentacao_dt : option Date.Timestamp }.

(** Columns A..J; the two keys go through [to_numeric(...,
    errors='coerce')] and keep their [NaN]. *)
Definition project (row : list string) : t :=
  {| id_movimentacao := to_numeric (record_cell 1 row);
     id_equipamento_fk := to_numeric (record_cell 2 row);
     tipo_movimentacao := record_cell 3 row;
     quantidade_movida := record_cell 4 row;
     destino_origem := record_cell 5 row;
     solicitante := record_cell 6 row;
     chamado := record_cell 7 row;
     responsavel_movimentacao := record_cell 8 row;
     data_movimentacao := record_cell 9 row;
     motivo_laudo := record_cell 10 row;
     data_movimentacao_dt := to_datetime (record_cell 9 row) |}.
End Mov.

Module Setor.
Record t := mk {
  id : Z; data_movimentacao : value; responsavel : value;
  tipo_equipamento : value; patrimonio : string; servicetag : value;
  setor_origem : value; setor_destino : value; observacao : value;
  chamado : value; solicitante : value; status_regularizacao : value;
  data_movimentacao_dt : option Date.Timestamp }.

(** Columns A..L; [pd.to_numeric] without [errors='coerce'] raises on an
    id that is not a number ([None] here), [patrimonio] is cast to
    text. *)
Definition project (row : list string) : option t :=
  i ← to_numeric (record_cell 1 row);
  Some {| id := i;
     data_movimentacao := record_cell 2 row;
     responsavel := record_cell 3 row;
     tipo_equipamento := record_cell 4 row;
     patrimonio := render (record_cell 5 row);
     servicetag := record_cell 6 row;
     setor_origem := record_cell 7 row;
     setor_destino := record_cell 8 row;
     observacao := record_cell 9 row;
     chamado := record_cell 10 row;
     solicitante := record_cell 11 row;
     status_regularizacao := record_cell 12 row;
     data_movimentacao_dt := to_datetime (record_cell 2 row) |}.
End Setor.

(** ** Program state and effects *)

Record State := mkState {
  equip_sheet : sheet;
  mov_sheet : sheet;
  mov_setores_sheet : sheet;
  equip_df : list Equip.t;
  mov_df : list Mov.t;
  mov_setores_df : list Setor.t;
  clock : nat -> string;
  clock_reads : nat;
  api_log : list api_call }.

Definition get_sheet (n : sheet_name) (s : State) : sheet :=
  match n with
  | Equipamentos => equip_sheet s
  | Movimentacoes => mov_sheet s
  | MovSetores => mov_setores_sheet s
  end.

Definition set_sheet (n : sheet_name) (sh : sheet) (s : State) : State :=
  match n with
  | Equipamentos =>
      mkState sh (mov_sheet s) (mov_setores_sheet s) (equip_df s) (mov_df s)
        (mov_setores_df s) (clock s) (clock_reads s) (api_log s)
  | Movimentacoes =>
      mkState (equip_sheet s) sh (mov_setores_sheet s) (equip_df s) (mov_df s)
        (mov_setores_df s) (clock s) (clock_reads s) (api_log s)
  | MovSetores =>
      mkState (equip_sheet s) (mov_sheet s) sh (equip_df s) (mov_df s)
        (mov_setores_df s) (clock s) (clock_reads s) (api_log s)
  end.

Definition set_dfs (e : list Equip.t) (m : list Mov.t) (t : list Setor.t) (s : State) : State :=
  mkState (equip_sheet s) (mov_sheet s) (mov_setores_sheet s) e m t
    (clock s) (clock_reads s) (api_log s).

Definition add_log (c : api_call) (s : State) : State :=
  mkState (equip_sheet s) (mov_sheet s) (mov_setores_sheet s) (equip_df s) (mov_df s)
    (mov_setores_df s) (clock s) (clock_reads s) (api_log s ++ [c]).

Definition tick (s : State) : State :=
  mkState (equip_sheet s) (mov_sheet s) (mov_setores_sheet s) (equip_df s) (mov_df s)
    (mov_setores_df s) (clock s) (S (clock_reads s)) (api_log s).

Inductive exn := KeyError | ValueError.

Inductive outcome (A : Type) := Ret (a : A) | Raise (e : exn).
Arguments Ret {A} a.
Arguments Raise {A} e.

(** A computation of the program: it runs on a state, and returns or
    raises; what it wrote before raising stays written. *)
Definition M (A : Type) : Type := State -> outcome A * State.

#[export] Instance M_ret : MRet M := fun A a s => (Ret a, s).
#[export] Instance M_bind : MBind M := fun A B f m s =>
  match m s with
  | (Ret a, s') => f a s'
  | (Raise e, s') => (Raise e, s')
  end.

Definition raise {A} (e : exn) : M A := fun s => (Raise e, s).
Definition modify (f : State -> State) : M unit := fun s => (Ret tt, f s).
Definition gets {A} (f : State -> A) : M A := fun s => (Ret (f s), s).

(** [for x in xs: body] with the loop's local variables in [acc]. *)
Fixpoint for_each {A B} (body : B -> A -> M B) (acc : B) (xs : list A) : M B :=
  match xs with
  | [] => mret acc
  | x :: r => acc' ← body acc x; for_each body acc' r
  end.

(** *** The client's calls *)

Definition col_values_tail (n : sheet_name) (c : nat) : M (list string) :=
  modify (add_log (ColValues n c));; gets (fun s => column c (get_sheet n s)).

Definition get_all_records (n : sheet_name) : M sheet :=
  modify (add_log (GetAllRecords n));; gets (get_sheet n).

Definition append_row (n : sheet_name) (row : list value) : M unit :=
  modify (add_log (AppendRow n row));;
  modify (fun s => set_sheet n (get_sheet n s ++ [map render row]) s).

Definition append_rows (n : sheet_name) (rows : list (list value)) : M unit :=
  modify (add_log (AppendRows n rows));;
  modify (fun s => set_sheet n (get_sheet n s ++ map (map render) rows) s).

Definition update_cell (n : sheet_name) (r c : nat) (v : value) : M unit :=
  modify (add_log (UpdateCell n r c v));;
  modify (fun s => set_sheet n (set_cell r c (render v) (get_sheet n s)) s).

Definition update_range (n : sheet_name) (r : nat) (row : list value) : M unit :=
  modify (add_log (UpdateRange n r row));;
  modify (fun s => set_sheet n (set_row r (map render row) (get_sheet n s)) s).

Definition apply_cells (cells : list (nat * nat * value)) (sh : sheet) : sheet :=
  fold_left (fun sh '(r, c, v) => set_cell r c (render v) sh) cells sh.

Definition batch_update (n : sheet_name) (cells : list (nat * nat * value)) : M unit :=
  modify (add_log (BatchUpdate n cells));;
  modify (fun s => set_sheet n (apply_cells cells (get_sheet n s)) s).

(** [datetime.datetime.now().strftime("%d-%m-%Y %H:%M:%S")]: the next
    reading of the clock. *)
Definition now : M string :=
  t ← gets (fun s => clock s (clock_reads s)); modify tick;; mret t.

(** [refresh_dataframes] *)
Definition project_setores (rows : sheet) : outcome (list Setor.t) :=
  match mapM Setor.project rows with
  | Some df => Ret df
  | None => Raise ValueError
  end.

Definition refresh_dataframes : M unit :=
  e ← get_all_records Equipamentos;
  m ← get_all_records Movimentacoes;
  t ← get_all_records MovSetores;
  modify (set_dfs (map Equip.project e) (map Mov.project m) []);;
  match project_setores t with
  | Ret df => modify (set_dfs (map Equip.project e) (map Mov.project m) df)
  | Raise x => raise x
  end.

(** ** Dialogs *)

(** The message box an operation ends with. *)
Inductive dialog :=
  | showwarning (title : string)
  | showerror (title : string)
  | showinfo (title : string).

Definition Em_Estoque : string := "Em Estoque".
Definition Fora_de_Estoque : string := "Fora de Estoque".
Definition Descartado : string := "Descartado".
Definition Saida : string := "Saída".
Definition Entrada : string := "Entrada".
Definition Descarte : string := "Descarte".
Definition Pendente : string := "Pendente".
Definition Regularizado : string := "Regularizado".

(** [not s] for a string *)
Definition blank (s : string) : bool := String.eqb s "".

(** ** Ids and row numbers *)

(** The list comprehension and [max] of [_get_next_id]; [None] stands
    for the [ValueError] of [int]. *)
Definition next_id_of (ids : list string) : option Z :=
  match ids with
  | [] => Some 1%Z
  | _ =>
      nums ← mapM Py.int (filter (fun i => Is_true (Py.isdigit i)) ids);
      Some (Py.max_default 0 nums + 1)%Z
  end.

Definition _get_next_id (n : sheet_name) : M Z :=
  ids ← col_values_tail n 1;
  match next_id_of ids with
  | Some i => mret i
  | None => raise ValueError
  end.

(** [_find_sheet_row_index_by_id]: the sheet row of the first record
    with that id, [None] when there is none ([IndexError] caught); a
    table without rows has no [id] column. *)
Definition _find_sheet_row_index_by_id {A} (id_of : A -> Z) (df : list A) (record_id : Z)
  : outcome (option nat) :=
  match df with
  | [] => Raise KeyError
  | _ => Ret ((fun '(df_index, _) => (df_index + 2)%nat) <$>
                list_find (fun r => id_of r = record_id) df)
  end.

Definition lift {A} (o : outcome A) : M A := fun s => (o, s).

(** ** Equipment: add and edit *)





(** ** Stock movements ([confirmar_movimentacao]) *)

(** The validation loop over the items and their quantity fields: the
    first violation ends it with an error box. *)
Fixpoint validar_quantidades (tipo_mov : string) (details : list (Equip.t * string))
    (items_validados : list (Equip.t * Z)) : dialog + list (Equip.t * Z) :=
  match details with
  | [] => inr items_validados
  | (item_data, qtd_text) :: rest =>
      let qtd_atual := Equip.quantidade item_data in
      match Py.int qtd_text with
      | None => inl (showerror "Valor Inválido")
      | Some qtd_mov =>
          if (qtd_mov <=? 0)%Z then inl (showerror "Valor Inválido")
          else if String.eqb tipo_mov Saida && (qtd_atual <? qtd_mov)%Z
          then inl (showerror "Estoque Insuficiente")
          else validar_quantidades tipo_mov rest (items_validados ++ [(item_data, qtd_mov)])
      end
  end.

(** New quantity and status by kind of movement. *)
Definition nova_qtd_status (tipo_mov : string) (qtd_atual qtd_a_mover : Z) : Z * string :=
  if String.eqb tipo_mov Saida then
    let nova_qtd := (qtd_atual - qtd_a_mover)%Z in
    (nova_qtd, if (0 <? nova_qtd)%Z then Em_Estoque else Fora_de_Estoque)
  else if String.eqb tipo_mov Entrada then
    ((qtd_atual + qtd_a_mover)%Z, Em_Estoque)
  else (0%Z, Descartado).

Section Movimentacao.
Variables (tipo_mov responsavel solicitante chamado destino_origem motivo_laudo : string).

Definition linha_movimentacao (mov_id item_id qtd_a_mover : Z) (data_mov : string)
  : list value :=
  let descarte := String.eqb tipo_mov Descarte in
  [VInt mov_id; VInt item_id; VStr tipo_mov; VInt qtd_a_mover; VStr destino_origem;
   VStr (if descarte then "" else solicitante);
   VStr (if descarte then "" else chamado);
   VStr responsavel; VStr data_mov;
   VStr (if descarte then Py.strip motivo_laudo else "")].

(** One turn of the processing loop; [novas_movimentacoes] is the
    loop's accumulator. *)
Definition processar_item (data_mov : string) (novas_movimentacoes : list (list value))
    (item : Equip.t * Z) : M (list (list value)) :=
  let '(data, qtd_a_mover) := item in
  let item_id := Equip.id data in
  let qtd_atual := Equip.quantidade data in
  let '(nova_qtd, novo_status) := nova_qtd_status tipo_mov qtd_atual qtd_a_mover in
  df ← gets equip_df;
  row_index ← lift (_find_sheet_row_index_by_id Equip.id df item_id);
  match row_index with
  | Some r =>
      update_cell Equipamentos r 5 (VInt nova_qtd);;
      update_cell Equipamentos r 6 (VStr novo_status)
  | None => mret tt
  end;;
  next ← _get_next_id Movimentacoes;
  let mov_id := (next + Z.of_nat (length novas_movimentacoes))%Z in
  mret (novas_movimentacoes ++ [linha_movimentacao mov_id item_id qtd_a_mover data_mov]).

Definition confirmar_movimentacao (movimentacao_details : list (Equip.t * string))
  : M dialog :=
  if blank responsavel then mret (showwarning "Campo Vazio") else
  if (String.eqb tipo_mov Saida || String.eqb tipo_mov Entrada) && blank destino_origem
  then mret (showwarning "Campos Vazios") else
  if String.eqb tipo_mov Descarte && (blank motivo_laudo || blank (Py.strip motivo_laudo))
  then mret (showwarning "Campo Obrigatório") else
  match validar_quantidades tipo_mov movimentacao_details [] with
  | inl box => mret box
  | inr items_validados =>
      data_mov ← now;
      novas_movimentacoes ← for_each (processar_item data_mov) [] items_validados;
      match novas_movimentacoes with
      | [] => mret tt
      | _ => append_rows Movimentacoes novas_movimentacoes
      end;;
      refresh_dataframes;;
      mret (showinfo "Sucesso")
  end.
End Movimentacao.

(** [get_data_from_tree_selection]: the rows of the equipment table
    whose id is among the selected ones. *)
Definition get_data_from_tree_selection (df : list Equip.t) (tree_ids : list Z) : list Equip.t :=
  match tree_ids with
  | [] => []
  | _ => filter (fun r => Equip.id r ∈ tree_ids) df
  end.

(** ** Transfers between sectors *)

Definition nl : string := String (ascii_of_nat 10) EmptyString.

Definition Kit : string := "Kit (2x Monitores e 1 desktop)".

Record FormSetor := mkFormSetor {
  f_tipo_equip : string; f_origem : string; f_destino : string;
  f_responsavel : string; f_obs : string; f_chamado : string; f_solicitante : string;
  f_patrimonio : string; f_servicetag : string;
  kit_p1 : string; kit_s1 : string; kit_p2 : string; kit_s2 : string;
  kit_p3 : string; kit_s3 : string }.

(** The asset-tag and service-tag texts of the new row, or the warning
    that ends the operation.  In the Kit branch the second composition
    is bound to the name [ervicetag], so [servicetag] keeps the empty
    text it was initialised with. *)
Definition campos_patrimonio (f : FormSetor) : dialog + string * string :=
  let patrimonio := "" in
  let servicetag := "" in
  if String.eqb (f_tipo_equip f) Kit then
    let p1 := kit_p1 f in let s1 := kit_s1 f in
    let p2 := kit_p2 f in let s2 := kit_s2 f in
    let p3 := kit_p3 f in let s3 := kit_s3 f in
    if existsb blank [p1; s1; p2; s2; p3; s3] then inl (showwarning "Campos Obrigatórios")
    else
      let patrimonio :=
        ("Monitor 1: " ++ p1 ++ nl ++ "Monitor 2: " ++ p2 ++ nl ++ "Desktop: " ++ p3)%string in
      let ervicetag :=
        ("Monitor 1: " ++ s1 ++ nl ++ "Monitor 2: " ++ s2 ++ nl ++ "Desktop: " ++ s3)%string in
      inr (patrimonio, servicetag)
  else
    let patrimonio := f_patrimonio f in
    let servicetag := f_servicetag f in
    if blank patrimonio then inl (showwarning "Campo Obrigatório")
    else if (String.eqb (f_tipo_equip f) "Monitor" || String.eqb (f_tipo_equip f) "Desktop")
            && blank servicetag
    then inl (showwarning "Campo Obrigatório")
    else inr (patrimonio, servicetag).

Definition registrar_movimentacao_setor (f : FormSetor) : M dialog :=
  let obs := Py.strip (f_obs f) in
  match campos_patrimonio f with
  | inl box => mret box
  | inr (patrimonio, servicetag) =>
      if existsb blank [f_tipo_equip f; f_origem f; f_destino f; f_responsavel f;
                        f_chamado f; f_solicitante f]
      then mret (showwarning "Campos Obrigatórios") else
      if String.eqb (f_origem f) (f_destino f)
      then mret (showwarning "Movimentação Inválida") else
      novo_id ← _get_next_id MovSetores;
      data ← now;
      append_row MovSetores
        [VInt novo_id; VStr data; VStr (f_responsavel f); VStr (f_tipo_equip f);
         VStr patrimonio; VStr servicetag; VStr (f_origem f); VStr (f_destino f);
         VStr obs; VStr (f_chamado f); VStr (f_solicitante f); VStr Pendente];;
      refresh_dataframes;;
      mret (showinfo "Sucesso")
  end.

(** [marcar_como_regularizado] on the ids of the selected lines.  Column
    L (the 12th) is [status_regularizacao]. *)
Definition coletar_update (updates : list (nat * nat * value)) (mov_id : Z)
  : M (list (nat * nat * value)) :=
  df ← gets mov_setores_df;
  row_index ← lift (_find_sheet_row_index_by_id Setor.id df mov_id);
  match row_index with
  | Some r => mret (updates ++ [(r, 12%nat, VStr Regularizado)])
  | None => mret updates
  end.

Definition marcar_como_regularizado (selected : list Z) : M dialog :=
  match selected with
  | [] => mret (showwarning "Nenhum Item Selecionado")
  | _ =>
      updates ← for_each coletar_update [] selected;
      match updates with
      | [] => mret (showerror "Erro")
      | _ =>
          batch_update MovSetores updates;;
          refresh_dataframes;;
          mret (showinfo "Sucesso")
      end
  end.

(** ** The history of an item in the stock report ([gerar_relatorio]) *)

Definition Intervalo : string := "intervalo".

(** The bounds of the date filter: nothing to parse unless the history
    is asked for with the [intervalo] filter; [None] stands for the
    "Data Inválida" box that ends the report. *)
Definition limites_do_filtro (incluir_historico : bool) (filtro_data : string)
    (data_inicio_str data_fim_str : string)
  : option (option Date.Timestamp * option Date.Timestamp) :=
  if incluir_historico && String.eqb filtro_data Intervalo then
    data_inicio_dt ← Date.parse_dmy data_inicio_str;
    fim ← Date.parse_dmy data_fim_str;
    let data_fim_dt := Date.end_of_day fim in
    if Date.in_bounds data_fim_dt then Some (Some data_inicio_dt, Some data_fim_dt) else None
  else Some (None, None).

(** A comparison with [NaT] or with a missing bound is false. *)
Definition dentro_do_intervalo (data_inicio_dt data_fim_dt : option Date.Timestamp)
    (mov : Mov.t) : bool :=
  match Mov.data_movimentacao_dt mov, data_inicio_dt, data_fim_dt with
  | Some t, Some a, Some b => (a <=? t)%Z && (t <=? b)%Z
  | _, _, _ => false
  end.

(** The movements listed under an item of the report, before they are
    sorted for display. *)
Definition historico_do_item (mov_df : list Mov.t) (filtro_data : string)
    (data_inicio_dt data_fim_dt : option Date.Timestamp) (item : Equip.t) : list Mov.t :=
  let hist_df :=
    filter (fun mov => Mov.id_equipamento_fk mov = Some (Equip.id item)) mov_df in
  if String.eqb filtro_data Intervalo && negb (bool_decide (hist_df = []))
  then filter (fun mov => Is_true (dentro_do_intervalo data_inicio_dt data_fim_dt mov)) hist_df
  else hist_df.


(** A session that has just connected: nothing loaded, nothing logged. *)
Definition connected (equip mov setores : sheet) (clk : nat -> string) : State :=
  mkState equip mov setores [] [] [] clk 0 [].

#[export] Instance sheet_name_eq_dec : EqDecision sheet_name.
Proof. solve_decision. Defined.

(** ** Reading the log of calls *)

(** The rows a call appends to worksheet [n]. *)
Definition appended (n : sheet_name) (c : api_call) : list (list value) :=
  match c with
  | AppendRow m row => if decide (m = n) then [row] else []
  | AppendRows m rows => if decide (m = n) then rows else []
  | _ => []
  end.

(** The cells (row, column, value) a call writes in worksheet [n]. *)
Definition cells (n : sheet_name) (c : api_call) : list (nat * nat * value) :=
  match c with
  | UpdateCell m r k v => if decide (m = n) then [(r, k, v)] else []
  | BatchUpdate m l => if decide (m = n) then l else []
  | UpdateRange m r row => if decide (m = n) then imap (fun k v => (r, S k, v)) row else []
  | _ => []
  end.

Definition is_write (c : api_call) : bool :=
  match c with
  | ColValues _ _ | GetAllRecords _ => false
  | _ => true
  end.


Definition rows_appended (n : sheet_name) (log : list api_call) : list (list value) :=
  log ≫= appended n.


Definition writes (log : list api_call) : list api_call :=
  filter (fun c => Is_true (is_write c)) log.


(** What a run added to the log. *)
Definition new_calls (before after : State) : list api_call :=
  drop (length (api_log before)) (api_log after).

(** ** Vocabulary for movements *)


(** The sheet row an id resolves to in a table, if any. *)
Definition row_of {A} (id_of : A -> Z) (df : list A) (record_id : Z) : option nat :=
  (fun '(i, _) => (i + 2)%nat) <$> list_find (fun r => id_of r = record_id) df.





(** The rows the processing loop builds from position [k] on: ids count
    up from [base + k]. *)
Definition linhas (tipo_mov responsavel solicitante chamado destino_origem motivo_laudo
    data_mov : string) (base : Z) (k : nat) (items : list (Equip.t * Z)) : list (list value) :=
  imap (fun j item =>
          linha_movimentacao tipo_mov responsavel solicitante chamado destino_origem
            motivo_laudo (base + Z.of_nat (k + j))%Z (Equip.id item.1) item.2 data_mov)
    items.




(** The state [refresh_dataframes] leaves, with the sector table [t]. *)
Definition recarregado (t : list Setor.t) (s : State) : State :=
  mkState (equip_sheet s) (mov_sheet s) (mov_setores_sheet s)
    (Equip.project <$> equip_sheet s) (Mov.project <$> mov_sheet s) t
    (clock s) (clock_reads s)
    (api_log s ++ [GetAllRecords Equipamentos; GetAllRecords Movimentacoes;
                   GetAllRecords MovSetores]).


(** ** A small stock, for the examples *)

Definition estoque_exemplo : sheet :=
  [ ["1"; "Mouse"; "SN-1"; "Mouse USB"; "4"; "Em Estoque"; "02-01-2025 09:00:00"; "2";
     "Perifericos"];
    ["2"; "Teclado"; "SN-2"; "Teclado ABNT2"; "7"; "Em Estoque"; "02-01-2025 09:05:00"; "2";
     "Perifericos"];
    ["5"; "Monitor"; "SN-5"; "Monitor 24"; "10"; "Em Estoque"; "03-01-2025 14:00:00"; "2";
     "Monitores"] ].

Definition historico_exemplo : sheet :=
  [ ["1"; "5"; "Entrada"; "10"; "Item Novo (Entrada inicial)"; "Ana"; "CH-1"; "Rui";
     "31-01-2025 23:59:59"; ""];
    ["2"; "5"; "Entrada"; "1"; "Deposito"; "Ana"; "CH-2"; "Rui";
     "01-02-2025 00:00:00"; ""] ].

Definition relogio_exemplo (n : nat) : string :=
  match n with
  | O => "10-02-2025 08:30:00"
  | _ => "10-02-2025 08:30:01"
  end.

(** The session after its first load of the tables. *)
Definition sessao_exemplo : State :=
  (refresh_dataframes (connected estoque_exemplo historico_exemplo [] relogio_exemplo)).2.

Definition item_exemplo (n : nat) : Equip.t :=
  default (Equip.project []) (equip_df sessao_exemplo !! n).

(** ** Two readings of the spec, to compare with the code *)




(** ** The quantity and status an operation leaves in an equipment row *)



(** ** A Kit transfer, for the examples *)

Definition kit_exemplo : FormSetor :=
  mkFormSetor Kit "TI" "Financeiro" "Rui" " troca de posto " "CH-31" "Ana" "" ""
    "P-101" "ST-A1" "P-102" "ST-A2" "P-103" "ST-A3".

(** The text the Kit branch composes from three sub-values. *)
Definition campo_kit (v1 v2 v3 : string) : string :=
  ("Monitor 1: " ++ v1 ++ nl ++ "Monitor 2: " ++ v2 ++ nl ++ "Desktop: " ++ v3)%string.

(** ** Vocabulary for the regularization *)

(** The state of the store: the three worksheets. *)
Definition store (s : State) : sheet * sheet * sheet :=
  (equip_sheet s, mov_sheet s, mov_setores_sheet s).

(** The sector table in memory is the one loaded from the sheet. *)
Definition sincronizado (s : State) : Prop :=
  project_setores (mov_setores_sheet s) = Ret (mov_setores_df s).

(** The cells [marcar_como_regularizado] collects for the selected ids:
    one per id that resolves, in the order of the selection. *)
Definition updates_de (df : list Setor.t) (selected : list Z) : list (nat * nat * value) :=
  omap (fun mov_id => (fun r => (r, 12%nat, VStr Regularizado)) <$> row_of Setor.id df mov_id)
    selected.

(** The regularization status of a row of the sector sheet. *)
Definition status_da_linha (row : list string) : string := cell 12 row.

Definition setores_exemplo : sheet :=
  [ ["1"; "05-01-2025 10:00:00"; "Rui"; "Monitor"; "P-1"; "ST-1"; "TI"; "RH"; ""; "CH-1"; "Ana";
     "Pendente"];
    ["2"; "06-01-2025 10:00:00"; "Rui"; "Desktop"; "P-2"; "ST-2"; "TI"; "RH"; ""; "CH-2"; "Ana";
     "Regularizado"];
    ["3"; "07-01-2025 10:00:00"; "Rui"; "Mouse"; "P-3"; ""; "RH"; "TI"; ""; "CH-3"; "Ana";
     "Pendente"] ].

Definition sessao_setores : State :=
  (refresh_dataframes (connected estoque_exemplo historico_exemplo setores_exemplo
                         relogio_exemplo)).2.

(** Row [j] of the sector sheet after the status cell of the sheet rows
    [R] has been set to [v]. *)
Definition marcada (R : list nat) (v : string) (j : nat) (row : list string) : list string :=
  if bool_decide ((j + 2)%nat ∈ R) then set_in_row 12 v row else row.

(** ** Vocabulary for adding, editing and deleting equipment *)


(** [delete_rows(r)] on the data rows; a row below the data has nothing
    to delete, the header row is not part of the model. *)
Definition delete_row (r : nat) (sh : sheet) : sheet :=
  match r with
  | S (S i) => delete i sh
  | _ => sh
  end.

(** The deletion of a sheet row.  The log of calls keeps the reads, the
    cell writes and the appends; a deletion shows in the sheet only. *)
Definition delete_rows (n : sheet_name) (r : nat) : M unit :=
  modify (fun s => set_sheet n (delete_row r (get_sheet n s)) s).

(** Descending order on row numbers. *)
Definition desc (a b : nat) : Prop := (b <= a)%nat.

#[export] Instance desc_dec : RelDecision desc.
Proof. intros a b. unfold desc. apply _. Defined.

(** [sorted(rows, reverse=True)] *)
Definition sorted_reverse (rows : list nat) : list nat := merge_sort desc rows.

(** [excluir_equipamento] on the ids of the selected lines, with the
    answer to the confirmation box; [None] when the user says no. *)
Definition coletar_linha (rows_to_delete : list nat) (item_id : Z) : M (list nat) :=
  df ← gets equip_df;
  row_index ← lift (_find_sheet_row_index_by_id Equip.id df item_id);
  match row_index with
  | Some r => mret (rows_to_delete ++ [r])
  | None => mret rows_to_delete
  end.

Definition excluir_equipamento (selected : list Z) (confirm : bool) : M (option dialog) :=
  match selected with
  | [] => mret (Some (showwarning "Nenhum Item Selecionado"))
  | _ =>
      if confirm then
        rows_to_delete ← for_each coletar_linha [] selected;
        for_each (fun _ row_index => delete_rows Equipamentos row_index) tt
          (sorted_reverse rows_to_delete);;
        refresh_dataframes;;
        mret (Some (showinfo "Sucesso"))
      else mret None
  end.

(** The rows of a sheet whose sheet row number, counted from [k] for
    the first of them, is not in [D]. *)
Fixpoint sem_linhas {A} (k : nat) (D : list nat) (l : list A) : list A :=
  match l with
  | [] => []
  | x :: r => if bool_decide (k ∈ D) then sem_linhas (S k) D r else x :: sem_linhas (S k) D r
  end.

(** ** The selection of the sector report ([gerar_relatorio_setores]) *)

Definition tem_texto (t : string) (v : value) : bool :=
  match v with VStr s => String.eqb s t | VInt _ => false end.

Definition setor_no_intervalo (a b : Date.Timestamp) (m : Setor.t) : bool :=
  match Setor.data_movimentacao_dt m with
  | Some t => (a <=? t)%Z && (t <=? b)%Z
  | None => false
  end.

(** The rows that go in the sector report, or the box that ends the
    operation before any file is asked for: the status filter first,
    then the date filter, then the test for an empty result. *)
Definition selecao_setores (filtro_status filtro_data data_inicio_str data_fim_str : string)
    (mov_setores_df : list Setor.t) : dialog + list Setor.t :=
  match mov_setores_df with
  | [] => inl (showinfo "Relatório Vazio")
  | _ =>
      let df_relatorio :=
        if String.eqb filtro_status "pendentes" then
          filter (fun m => Is_true (tem_texto Pendente (Setor.status_regularizacao m)))
            mov_setores_df
        else if String.eqb filtro_status "regularizados" then
          filter (fun m => Is_true (tem_texto Regularizado (Setor.status_regularizacao m)))
            mov_setores_df
        else mov_setores_df in
      let filtrado :=
        if String.eqb filtro_data Intervalo then
          data_inicio_dt ← Date.parse_dmy data_inicio_str;
          fim ← Date.parse_dmy data_fim_str;
          let data_fim_dt := Date.end_of_day fim in
          if Date.in_bounds data_fim_dt then
            Some (filter (fun m => Is_true (setor_no_intervalo data_inicio_dt data_fim_dt m))
                    df_relatorio)
          else None
        else Some df_relatorio in
      match filtrado with
      | None => inl (showerror "Data Inválida")
      | Some [] => inl (showinfo "Relatório Vazio")
      | Some linhas => inr linhas
      end
  end.



Definition form_mesmo_setor : FormSetor :=
  mkFormSetor "Monitor" "TI" "TI" "Rui" "" "CH-40" "Ana" "P-200" "ST-200" "" "" "" "" "" "".


(** * Properties *)

(** ** The primitives on examples *)

Example py_isdigit_7 : Py.isdigit "7" = true /\ Py.isdigit "x" = false /\ Py.isdigit "" = false /\ Py.isdigit "-3" = false.
Proof. repeat split; reflexivity. Qed.

Example py_int_examples :
  Py.int " 12 " = Some 12 /\ Py.int "-4" = Some (-4) /\ Py.int "1_000" = Some 1000
  /\ Py.int "1.5" = None /\ Py.int "" = None /\ Py.int "1__0" = None /\ Py.int "abc" = None.
Proof. repeat split; reflexivity. Qed.

Example py_strip_examples :
  Py.strip "  a b  " = "a b" /\ Py.strip "   " = "" /\ Py.strip "" = "" /\ Py.strip "x" = "x".
Proof. repeat split; reflexivity. Qed.

Example py_str_examples : Py.str 0 = "0" /\ Py.str 1205 = "1205" /\ Py.str (-40) = "-40".
Proof. repeat split; vm_compute; reflexivity. Qed.

Example parse_dmy_examples :
  Date.parse_dmy "01/01/1970" = Some 0 /\ Date.parse_dmy "1/3/2024" = Date.parse_dmy "01/03/2024"
  /\ Date.parse_dmy "31/02/2025" = None /\ Date.parse_dmy "2025-01-31" = None
  /\ Date.parse_dmy "31/01/2025" = Some 1738281600.
Proof. repeat split; vm_compute; reflexivity. Qed.

Example parse_stamp_examples :
  Date.parse_stamp "31-01-2025 23:59:59" = Some 1738367999
  /\ Date.parse_stamp "01-02-2025 00:00:00" = Some 1738368000
  /\ Date.parse_stamp "31-01-2025" = None /\ Date.parse_stamp "" = None.
Proof. repeat split; vm_compute; reflexivity. Qed.

(** ** Integer texts *)







(** ** Maximum of a list *)






(** ** [_get_next_id] *)







(** ** The movement loops *)

Lemma bind_run {A B} (m : M A) (f : A -> M B) (s : State) :
  (m ≫= f) s = match m s with
               | (Ret a, s') => f a s'
               | (Raise e, s') => (Raise e, s')
               end.
Proof. reflexivity. Qed.



Section Loop.
Variables (tipo_mov responsavel solicitante chamado destino_origem motivo_laudo : string).
Variable data_mov : string.


Let linhas_a := linhas tipo_mov responsavel solicitante chamado destino_origem motivo_laudo
                  data_mov.



Lemma linhas_length base k items : length (linhas_a base k items) = length items.
Proof. apply length_imap. Qed.

End Loop.


Lemma refresh_dataframes_run (s : State) :
  refresh_dataframes s
  = match project_setores (mov_setores_sheet s) with
    | Ret df => (Ret tt, recarregado df s)
    | Raise x => (Raise x, recarregado [] s)
    end.
Proof.
  unfold refresh_dataframes, get_all_records.
  cbv [mbind M_bind modify gets mret M_ret raise]. cbn.
  destruct (project_setores (mov_setores_sheet s)); unfold recarregado, set_dfs, add_log; cbn;
    rewrite <- ?app_assoc; reflexivity.
Qed.

Section Confirmar.
Variables (tipo_mov responsavel solicitante chamado destino_origem motivo_laudo : string).




End Confirmar.

(** ** Numbers written to the sheet read back as themselves *)









(** ** Cells *)


Lemma length_pad_to {A} (d : A) (l : list A) (n : nat) :
  length (pad_to n d l) = Nat.max n (length l).
Proof. unfold pad_to. rewrite length_app, length_replicate. lia. Qed.

Lemma cell_set_in_row_eq (c : nat) (v : string) (row : list string) :
  (1 <= c)%nat -> cell c (set_in_row c v row) = v.
Proof.
  intros Hc. unfold cell, set_in_row.
  rewrite list_lookup_insert_eq; [reflexivity|]. rewrite length_pad_to. lia.
Qed.

Lemma cell_set_in_row_ne (c c' : nat) (v : string) (row : list string) :
  (1 <= c)%nat -> (1 <= c')%nat -> c <> c' -> cell c' (set_in_row c v row) = cell c' row.
Proof.
  intros Hc Hc' Hne. unfold cell, set_in_row.
  rewrite list_lookup_insert_ne by lia. unfold pad_to.
  destruct (decide (c' - 1 < length row)%nat) as [Hl|Hl].
  - now rewrite lookup_app_l.
  - rewrite lookup_app_r by lia. rewrite (lookup_ge_None_2 row) by lia.
    destruct (replicate _ _ !! _) as [x|] eqn:E; [|reflexivity].
    apply lookup_replicate in E as [-> _]. reflexivity.
Qed.


(** ** What a confirmed movement leaves *)

Lemma new_calls_app (s s' : State) (l : list api_call) :
  api_log s' = api_log s ++ l -> new_calls s s' = l.
Proof. unfold new_calls. intros ->. now rewrite drop_app_length. Qed.

Section Efeitos.
Variables (tipo_mov responsavel solicitante chamado destino_origem motivo_laudo : string).


End Efeitos.










(** ** Batches *)




Example C2_item_2_fails :
  let details := [(item_exemplo 0, "1"); (item_exemplo 1, "8"); (item_exemplo 2, "10")] in
  confirmar_movimentacao Saida "Rui" "Ana" "CH-7" "Financeiro" "" details sessao_exemplo
  = (Ret (showerror "Estoque Insuficiente"), sessao_exemplo).
Proof. vm_compute. reflexivity. Qed.

(** ** One item going out *)





(** ** Ids of a batch *)





(** ** An item that is not in the loaded table *)





(** ** Status follows quantity *)

Ltac run_monad :=
  cbv [mbind M_bind modify gets lift mret M_ret raise now append_row append_rows update_cell
       update_range batch_update].











(** ** Kit transfers *)

(** In the Kit branch, with the six fields filled, the asset-tag text is
    the composition and the service-tag text is empty. *)
Lemma campos_patrimonio_kit (f : FormSetor) :
  f_tipo_equip f = Kit ->
  existsb blank [kit_p1 f; kit_s1 f; kit_p2 f; kit_s2 f; kit_p3 f; kit_s3 f] = false ->
  campos_patrimonio f = inr (campo_kit (kit_p1 f) (kit_p2 f) (kit_p3 f), "").
Proof.
  intros Ht Hb. unfold campos_patrimonio. rewrite Ht, String.eqb_refl, Hb. reflexivity.
Qed.

(** C7, on the code.  A Kit transfer with the three asset tags and the
    three service tags filled appends one row whose asset-tag field is
    the newline-joined composition of the three asset tags, but whose
    service-tag field is the empty text: the composition of the service
    tags is never stored. *)
Theorem C7_kit_service_tags_are_not_stored :
  let run := registrar_movimentacao_setor kit_exemplo sessao_exemplo in
  run.1 = Ret (showinfo "Sucesso")
  /\ rows_appended MovSetores (new_calls sessao_exemplo run.2)
     = [[VInt 1; VStr "10-02-2025 08:30:00"; VStr "Rui"; VStr Kit;
         VStr (campo_kit "P-101" "P-102" "P-103"); VStr "";
         VStr "TI"; VStr "Financeiro"; VStr "troca de posto"; VStr "CH-31"; VStr "Ana";
         VStr Pendente]]
  /\ VStr "" <> VStr (campo_kit "ST-A1" "ST-A2" "ST-A3").
Proof.
  split; [vm_compute; reflexivity|]. split; [vm_compute; reflexivity|]. discriminate.
Qed.

(** ** Rows whose id does not parse *)




(** ** The date filter of the stock report *)

Lemma make_Some (y m d hh mm ss t : Z) :
  Date.make y m d hh mm ss = Some t ->
  t = (Date.days_from_civil y m d * 86400 + hh * 3600 + mm * 60 + ss)%Z
  /\ ((1 <=? m)%Z && (m <=? 12)%Z && (1 <=? d)%Z && (d <=? Date.days_in_month y m)%Z) = true
  /\ (hh <= 23)%Z /\ (mm <= 59)%Z /\ (ss <= 59)%Z /\ Date.in_bounds t = true.
Proof.
  unfold Date.make, Date.seconds_per_day.
  destruct (_ && (ss <=? 59)%Z) eqn:E; [|discriminate].
  destruct (Date.in_bounds _) eqn:B; [|discriminate]. intros [= <-].
  apply andb_prop in E as [[[E Hh]%andb_prop Hm]%andb_prop Hs].
  apply Z.leb_le in Hh, Hm, Hs. repeat split; assumption.
Qed.

Lemma make_intro (y m d hh mm ss : Z) :
  ((1 <=? m)%Z && (m <=? 12)%Z && (1 <=? d)%Z && (d <=? Date.days_in_month y m)%Z) = true ->
  (hh <= 23)%Z -> (mm <= 59)%Z -> (ss <= 59)%Z ->
  let t := (Date.days_from_civil y m d * 86400 + hh * 3600 + mm * 60 + ss)%Z in
  Date.in_bounds t = true -> Date.make y m d hh mm ss = Some t.
Proof.
  intros E Hh Hm Hs t B. unfold Date.make, Date.seconds_per_day. fold t.
  apply Z.leb_le in Hh, Hm, Hs. now rewrite E, Hh, Hm, Hs, B.
Qed.

Lemma make_bounds (y m d hh mm ss e t : Z) :
  Date.make y m d 0 0 0 = Some e -> Date.make y m d hh mm ss = Some t ->
  (0 <= hh)%Z -> (0 <= mm)%Z -> (0 <= ss)%Z ->
  (e <= t <= e + 86399)%Z.
Proof.
  intros (-> & _)%make_Some (-> & _ & ? & ? & ? & _)%make_Some ? ? ?. lia.
Qed.

Lemma make_end_of_day (y m d e : Z) :
  Date.make y m d 0 0 0 = Some e -> Date.in_bounds (Date.end_of_day e) = true ->
  Date.make y m d 23 59 59 = Some (Date.end_of_day e).
Proof.
  intros (-> & E & _)%make_Some B.
  unfold Date.end_of_day, Date.seconds_per_day in *.
  rewrite (make_intro y m d 23 59 59 E) by
    (try lia; match goal with |- Date.in_bounds ?x = true =>
       match type of B with Date.in_bounds ?z = true => replace x with z by lia; exact B end
     end).
  f_equal. lia.
Qed.

Lemma limites_intervalo ini fim a b :
  limites_do_filtro true Intervalo ini fim = Some (Some a, Some b) ->
  Date.parse_dmy ini = Some a
  /\ exists e, Date.parse_dmy fim = Some e /\ b = Date.end_of_day e
               /\ Date.in_bounds b = true.
Proof.
  unfold limites_do_filtro. cbn [andb]. rewrite String.eqb_refl.
  destruct (Date.parse_dmy ini) as [a'|]; [|discriminate].
  destruct (Date.parse_dmy fim) as [e|]; [|discriminate]. cbn.
  destruct (Date.in_bounds (Date.end_of_day e)) eqn:Hb; [|discriminate].
  intros [= <- <-]. split; [reflexivity|]. exists e. auto.
Qed.

Lemma historico_intervalo mov_df a b (item : Equip.t) (mov : Mov.t) :
  mov ∈ historico_do_item mov_df Intervalo (Some a) (Some b) item
  <-> mov ∈ mov_df /\ Mov.id_equipamento_fk mov = Some (Equip.id item)
      /\ exists t, Mov.data_movimentacao_dt mov = Some t /\ (a <= t <= b)%Z.
Proof.
  unfold historico_do_item. rewrite String.eqb_refl. cbn [andb].
  set (hist_df := filter _ mov_df).
  assert (Hd : Is_true (dentro_do_intervalo (Some a) (Some b) mov)
               <-> exists t, Mov.data_movimentacao_dt mov = Some t /\ (a <= t <= b)%Z).
  { unfold dentro_do_intervalo. destruct (Mov.data_movimentacao_dt mov) as [t|].
    - rewrite andb_True, !Is_true_true, !Z.leb_le. split.
      + intros ?. exists t. auto.
      + intros (t' & [= <-] & ?). assumption.
    - split; [intros []|intros (? & [=] & _)]. }
  destruct (bool_decide (hist_df = [])) eqn:Hnil; cbn [negb].
  - apply bool_decide_eq_true in Hnil. rewrite Hnil. split.
    + intros H. inversion H.
    + intros (Hin & Hfk & _). assert (Hm : mov ∈ hist_df) by (apply list_elem_of_filter; auto).
      now rewrite Hnil in Hm.
  - rewrite list_elem_of_filter. unfold hist_df. rewrite list_elem_of_filter, Hd. tauto.
Qed.

(** C8. With the [intervalo] filter and bounds that parse, the end
    bound is 23:59:59 of the end day, that is, 86400 seconds after the
    start of that day minus one second; the movements listed under an
    item are those of the item dated from the start bound to that second,
    both included.  With the bounds 01/01/2025 and 31/01/2025 a movement
    dated 31-01-2025 23:59:59 is listed and one dated 01-02-2025 00:00:00
    is not. *)
Theorem C8_end_bound_is_last_second_of_day :
  (forall data_inicio_str data_fim_str d m y a b,
     Date.campos_dmy data_fim_str = Some (d, m, y) ->
     limites_do_filtro true Intervalo data_inicio_str data_fim_str = Some (Some a, Some b) ->
     Date.make y m d 23 59 59 = Some b
     /\ (exists e, Date.make y m d 0 0 0 = Some e /\ b = (e + 86400 - 1)%Z)
     /\ (forall hh mm ss t, (0 <= hh)%Z -> (0 <= mm)%Z -> (0 <= ss)%Z ->
                            Date.make y m d hh mm ss = Some t -> (t <= b)%Z)
     /\ (forall mov_df item mov,
           mov ∈ historico_do_item mov_df Intervalo (Some a) (Some b) item
           <-> mov ∈ mov_df /\ Mov.id_equipamento_fk mov = Some (Equip.id item)
               /\ exists t, Mov.data_movimentacao_dt mov = Some t /\ (a <= t <= b)%Z))
  /\ (exists a b,
        limites_do_filtro true Intervalo "01/01/2025" "31/01/2025" = Some (Some a, Some b)
        /\ Date.parse_stamp "31-01-2025 23:59:59" = Some b
        /\ Date.parse_stamp "01-02-2025 00:00:00" = Some (b + 1)%Z
        /\ (Mov.data_movimentacao <$>
              historico_do_item (Mov.project <$> historico_exemplo) Intervalo (Some a) (Some b)
                (item_exemplo 2))
           = [VStr "31-01-2025 23:59:59"]).
Proof.
  split.
  - intros ini fim d m y a b Hcampos Hlim.
    destruct (limites_intervalo _ _ _ _ Hlim) as (_ & e & He & -> & Hb).
    unfold Date.parse_dmy in He. rewrite Hcampos in He. cbn in He.
    split; [now apply make_end_of_day|]. split; [|split].
    + exists e. split; [exact He|]. unfold Date.end_of_day, Date.seconds_per_day. lia.
    + intros hh mm ss t Hh Hm Hs Ht.
      pose proof (make_bounds _ _ _ _ _ _ _ _ He Ht Hh Hm Hs).
      unfold Date.end_of_day, Date.seconds_per_day. lia.
    + intros. apply historico_intervalo.
  - exists 1735689600%Z, 1738367999%Z. repeat split; vm_compute; reflexivity.
Qed.

Lemma C8_january_witness :
  Date.make 2025 1 31 23 59 59 = Some 1738367999%Z
  /\ forall mov_df item mov,
       mov ∈ historico_do_item mov_df Intervalo (Some 1735689600%Z) (Some 1738367999%Z) item
       <-> mov ∈ mov_df /\ Mov.id_equipamento_fk mov = Some (Equip.id item)
           /\ exists t, Mov.data_movimentacao_dt mov = Some t
                        /\ (1735689600 <= t <= 1738367999)%Z.
Proof.
  destruct C8_end_bound_is_last_second_of_day as [H _].
  destruct (H "01/01/2025" "31/01/2025" 31%Z 1%Z 2025%Z 1735689600%Z 1738367999%Z)
    as (H1 & _ & _ & H4).
  - vm_compute. reflexivity.
  - vm_compute. reflexivity.
  - split; [exact H1|exact H4].
Defined.

(** ** Writing cells inside the sheet *)

Lemma pad_to_id {A} (d : A) (l : list A) (n : nat) : (n <= length l)%nat -> pad_to n d l = l.
Proof.
  intros H. unfold pad_to. replace (n - length l)%nat with 0%nat by lia. apply app_nil_r.
Qed.

Lemma set_cell_inside (i c : nat) (v : string) (sh : list (list string)) (row : list string) :
  sh !! i = Some row -> set_cell (i + 2) c v sh = <[i := set_in_row c v row]> sh.
Proof.
  intros Hrow. replace (i + 2)%nat with (S (S i)) by lia. unfold set_cell. cbv beta iota zeta.
  pose proof (lookup_lt_Some _ _ _ Hrow). rewrite pad_to_id by lia. now rewrite Hrow.
Qed.

Lemma set_in_row_idemp (c : nat) (v : string) (row : list string) :
  (1 <= c)%nat -> set_in_row c v (set_in_row c v row) = set_in_row c v row.
Proof.
  intros Hc. unfold set_in_row at 1.
  rewrite pad_to_id by (unfold set_in_row; rewrite length_insert, length_pad_to; lia).
  unfold set_in_row. apply list_insert_insert_eq.
Qed.

Lemma set_in_row_same (c : nat) (v : string) (row : list string) :
  (1 <= c)%nat -> v <> "" -> cell c row = v -> set_in_row c v row = row.
Proof.
  intros Hc Hv Hcell. unfold cell in Hcell. unfold set_in_row.
  destruct (row !! (c - 1)%nat) as [x|] eqn:E; cbn in Hcell; [|congruence]. subst x.
  pose proof (lookup_lt_Some _ _ _ E). rewrite pad_to_id by lia. now apply list_insert_id.
Qed.

Lemma lookup_apply_cells (v : string) (R : list nat) : forall (sh : list (list string)),
  Forall (fun r => exists i, r = (i + 2)%nat /\ (i < length sh)%nat) R ->
  forall j, apply_cells ((fun r => (r, 12%nat, VStr v)) <$> R) sh !! j
            = marcada R v j <$> sh !! j.
Proof.
  induction R as [|r R IH]; intros sh HR j.
  - cbn. unfold marcada. destruct (sh !! j); cbn; [|reflexivity].
    now rewrite bool_decide_eq_false_2 by apply not_elem_of_nil.
  - apply Forall_cons in HR as [(i & -> & Hi) HR].
    destruct (lookup_lt_is_Some_2 sh i Hi) as [row Hrow].
    change (apply_cells ((fun r => (r, 12%nat, VStr v)) <$> (i + 2)%nat :: R) sh)
      with (apply_cells ((fun r => (r, 12%nat, VStr v)) <$> R) (set_cell (i + 2) 12 v sh)).
    rewrite (set_cell_inside _ _ _ _ _ Hrow).
    rewrite IH by (eapply Forall_impl; [exact HR|]; intros r (k & -> & Hk);
                   exists k; rewrite length_insert; auto).
    destruct (decide (j = i)) as [->|Hne].
    + rewrite list_lookup_insert_eq by exact Hi. rewrite Hrow. cbn. f_equal. unfold marcada.
      rewrite (bool_decide_eq_true_2 (_ ∈ (i + 2)%nat :: R)) by left.
      destruct (bool_decide _); [apply set_in_row_idemp; lia|reflexivity].
    + rewrite list_lookup_insert_ne by congruence. destruct (sh !! j); cbn; [|reflexivity].
      f_equal. unfold marcada.
      rewrite (bool_decide_ext ((j + 2)%nat ∈ R) ((j + 2)%nat ∈ (i + 2)%nat :: R));
        [reflexivity|].
      rewrite elem_of_cons. split; [auto|]. intros [?|?]; [lia|auto].
Qed.

Lemma length_apply_cells (v : string) (R : list nat) (sh : list (list string)) :
  Forall (fun r => exists i, r = (i + 2)%nat /\ (i < length sh)%nat) R ->
  length (apply_cells ((fun r => (r, 12%nat, VStr v)) <$> R) sh) = length sh.
Proof.
  intros HR. pose proof (lookup_apply_cells v R sh HR) as H.
  destruct (Nat.lt_total (length (apply_cells ((fun r => (r, 12%nat, VStr v)) <$> R) sh))
              (length sh)) as [Hlt|[Heq|Hgt]]; [|exact Heq|].
  - specialize (H (length (apply_cells ((fun r => (r, 12%nat, VStr v)) <$> R) sh))).
    rewrite lookup_ge_None_2 in H by lia.
    destruct (lookup_lt_is_Some_2 sh _ Hlt) as [x Hx]. rewrite Hx in H. discriminate.
  - specialize (H (length sh)). rewrite (lookup_ge_None_2 sh) in H by lia.
    destruct (lookup_lt_is_Some_2 _ _ Hgt) as [x Hx]. rewrite Hx in H. discriminate.
Qed.

Lemma marcada_idemp R v j row : marcada R v j (marcada R v j row) = marcada R v j row.
Proof.
  unfold marcada. destruct (bool_decide _); [apply set_in_row_idemp; lia|reflexivity].
Qed.

(** Setting the same status cells twice is setting them once. *)
Lemma apply_cells_idemp (v : string) (R : list nat) (sh : list (list string)) :
  Forall (fun r => exists i, r = (i + 2)%nat /\ (i < length sh)%nat) R ->
  let U := (fun r => (r, 12%nat, VStr v)) <$> R in
  apply_cells U (apply_cells U sh) = apply_cells U sh.
Proof.
  intros HR U. apply list_eq. intros j. unfold U.
  rewrite lookup_apply_cells.
  - rewrite lookup_apply_cells by exact HR. destruct (sh !! j); cbn; [|reflexivity].
    now rewrite marcada_idemp.
  - rewrite length_apply_cells by exact HR. exact HR.
Qed.

(** ** Row numbers depend on the id column only *)

Lemma row_of_fmap {A} (id_of : A -> Z) (df : list A) (x : Z) :
  row_of id_of df x = row_of (fun i : Z => i) (id_of <$> df) x.
Proof.
  unfold row_of. rewrite list_find_fmap. unfold compose.
  destruct (list_find _ df) as [[i r]|]; reflexivity.
Qed.

Lemma row_of_bound {A} (id_of : A -> Z) (df : list A) (x : Z) (r : nat) :
  row_of id_of df x = Some r -> exists i, r = (i + 2)%nat /\ (i < length df)%nat.
Proof.
  unfold row_of. destruct (list_find _ df) as [[i e]|] eqn:E; [|discriminate].
  intros [= <-]. exists i. split; [reflexivity|].
  apply list_find_Some in E as (Hl & _). now apply lookup_lt_Some in Hl.
Qed.

Lemma updates_de_forma (df : list Setor.t) (selected : list Z) :
  updates_de df selected
  = (fun r => (r, 12%nat, VStr Regularizado)) <$> omap (row_of Setor.id df) selected.
Proof.
  unfold updates_de. induction selected as [|x l IH]; [reflexivity|]. cbn.
  destruct (row_of Setor.id df x); cbn; now rewrite IH.
Qed.

Lemma updates_de_nil (selected : list Z) : updates_de [] selected = [].
Proof. unfold updates_de. induction selected as [|x l IH]; [reflexivity|exact IH]. Qed.

Lemma updates_de_bound (df : list Setor.t) (selected : list Z) :
  Forall (fun r => exists i, r = (i + 2)%nat /\ (i < length df)%nat)
    (omap (row_of Setor.id df) selected).
Proof.
  apply Forall_forall. intros r Hr. apply list_elem_of_omap in Hr as (x & _ & Hx).
  eapply row_of_bound. exact Hx.
Qed.

(** ** [marcar_como_regularizado] *)

Lemma coletar_run (selected : list Z) : forall acc s,
  mov_setores_df s <> [] ->
  for_each coletar_update acc selected s
  = (Ret (acc ++ updates_de (mov_setores_df s) selected), s).
Proof.
  induction selected as [|x l IH]; intros acc s Hdf.
  - cbn. now rewrite app_nil_r.
  - cbn [for_each]. rewrite bind_run. unfold coletar_update at 1. run_monad.
    unfold _find_sheet_row_index_by_id.
    destruct (mov_setores_df s) as [|e0 df] eqn:E; [congruence|].
    fold (row_of Setor.id (e0 :: df) x). unfold updates_de. cbn [omap list_omap].
    fold (updates_de (e0 :: df) l).
    destruct (row_of Setor.id (e0 :: df) x) as [r|]; cbn [fmap option_fmap option_map].
    + rewrite IH by (rewrite E; congruence). rewrite E, <- app_assoc. reflexivity.
    + rewrite IH by (rewrite E; congruence). rewrite E. reflexivity.
Qed.

Lemma coletar_sem_tabela (x : Z) (l : list Z) acc s :
  mov_setores_df s = [] -> for_each coletar_update acc (x :: l) s = (Raise KeyError, s).
Proof.
  intros E. cbn [for_each]. rewrite bind_run. unfold coletar_update. run_monad.
  rewrite E. reflexivity.
Qed.

Lemma setor_project_id (row : list string) :
  Setor.id <$> Setor.project row = to_numeric (record_cell 1 row).
Proof. unfold Setor.project. destruct (to_numeric (record_cell 1 row)); reflexivity. Qed.

Lemma project_ids (sh : list (list string)) (df : list Setor.t) :
  mapM Setor.project sh = Some df ->
  Some <$> (Setor.id <$> df) = (fun row => to_numeric (record_cell 1 row)) <$> sh.
Proof.
  intros H. apply mapM_Some_1 in H. induction H as [|row rec sh df Hp _ IH]; [reflexivity|].
  cbn. rewrite IH. f_equal. rewrite <- setor_project_id, Hp. reflexivity.
Qed.

Lemma record_cell_1_marcada R v j row :
  record_cell 1 (marcada R v j row) = record_cell 1 row.
Proof.
  unfold marcada, record_cell. destruct (bool_decide _); [|reflexivity].
  now rewrite cell_set_in_row_ne by lia.
Qed.

Lemma project_after (v : string) (R : list nat) (sh : list (list string)) (df : list Setor.t) :
  mapM Setor.project sh = Some df ->
  Forall (fun r => exists i, r = (i + 2)%nat /\ (i < length sh)%nat) R ->
  exists df', mapM Setor.project (apply_cells ((fun r => (r, 12%nat, VStr v)) <$> R) sh)
              = Some df'
              /\ Setor.id <$> df' = Setor.id <$> df.
Proof.
  intros Hdf HR. set (sh' := apply_cells _ sh).
  assert (Hcol : (fun row => to_numeric (record_cell 1 row)) <$> sh'
                 = (fun row => to_numeric (record_cell 1 row)) <$> sh).
  { apply list_eq. intros j. rewrite !list_lookup_fmap. unfold sh'.
    rewrite lookup_apply_cells by exact HR. destruct (sh !! j); cbn; [|reflexivity].
    now rewrite record_cell_1_marcada. }
  assert (Hsome : is_Some (mapM Setor.project sh')).
  { apply mapM_is_Some. apply Forall_forall. intros row' Hin. unfold compose.
    assert (Hc : to_numeric (record_cell 1 row')
                 ∈ (fun row => to_numeric (record_cell 1 row)) <$> sh')
      by exact (list_elem_of_fmap_2 (fun row => to_numeric (record_cell 1 row)) _ _ Hin).
    rewrite Hcol, <- (project_ids _ _ Hdf) in Hc.
    apply list_elem_of_fmap in Hc as (i & Hi & _).
    apply (fmap_is_Some Setor.id). rewrite setor_project_id, Hi. eauto. }
  destruct Hsome as [df' Hdf']. exists df'. split; [exact Hdf'|].
  apply (inj (fmap Some)). rewrite (project_ids _ _ Hdf'), (project_ids _ _ Hdf). exact Hcol.
Qed.

Lemma sincronizado_length (s : State) :
  sincronizado s -> length (mov_setores_df s) = length (mov_setores_sheet s).
Proof.
  unfold sincronizado, project_setores.
  destruct (mapM Setor.project (mov_setores_sheet s)) as [df|] eqn:E; [|discriminate].
  intros [= <-]. symmetry. apply mapM_Some_1 in E. eapply Forall2_length. exact E.
Qed.

(** What [marcar_como_regularizado] leaves, in every case. *)
Lemma marcar_efeito (selected : list Z) (s : State) :
  sincronizado s ->
  let s' := (marcar_como_regularizado selected s).2 in
  mov_setores_sheet s'
  = apply_cells (updates_de (mov_setores_df s) selected) (mov_setores_sheet s)
  /\ equip_sheet s' = equip_sheet s /\ mov_sheet s' = mov_sheet s
  /\ sincronizado s'
  /\ Setor.id <$> mov_setores_df s' = Setor.id <$> mov_setores_df s
  /\ (updates_de (mov_setores_df s) selected <> [] ->
      (marcar_como_regularizado selected s).1 = Ret (showinfo "Sucesso")).
Proof.
  intros Hsync s'. unfold s', marcar_como_regularizado.
  destruct selected as [|x l]; [cbn; repeat split; auto; congruence|].
  destruct (mov_setores_df s) as [|e0 df] eqn:E.
  { rewrite bind_run, coletar_sem_tabela by exact E. cbn [snd].
    rewrite updates_de_nil, E. cbn. repeat split; auto; congruence. }
  rewrite bind_run, coletar_run by (rewrite E; congruence). cbn [app]. rewrite E.
  pose proof (sincronizado_length s Hsync) as Hlen.
  pose proof Hsync as Hsync0.
  unfold sincronizado, project_setores in Hsync.
  destruct (mapM Setor.project (mov_setores_sheet s)) as [df0|] eqn:Hdf0; [|discriminate].
  injection Hsync as Hdf. rewrite E in Hdf, Hlen. subst df0.
  pose proof (updates_de_bound (e0 :: df) (x :: l)) as HR. rewrite Hlen in HR.
  destruct (project_after Regularizado _ _ _ Hdf0 HR) as (df' & Hdf' & Hids).
  rewrite <- updates_de_forma in Hdf'.
  remember (updates_de (e0 :: df) (x :: l)) as U eqn:EU.
  destruct U as [|u us].
  { unfold mret, M_ret. cbn [snd]. rewrite ?E. repeat split; auto; congruence. }
  run_monad. rewrite refresh_dataframes_run.
  cbn [get_sheet set_sheet add_log mov_setores_sheet].
  unfold project_setores. rewrite Hdf'.
  cbn [snd recarregado mov_setores_sheet equip_sheet mov_sheet mov_setores_df add_log].
  split; [reflexivity|]. split; [reflexivity|]. split; [reflexivity|].
  split; [|split; [exact Hids|reflexivity]].
  unfold sincronizado, project_setores.
  cbn [recarregado mov_setores_sheet mov_setores_df]. now rewrite Hdf'.
Qed.

Lemma updates_de_ids (df1 df2 : list Setor.t) (selected : list Z) :
  Setor.id <$> df1 = Setor.id <$> df2 -> updates_de df1 selected = updates_de df2 selected.
Proof.
  intros H. unfold updates_de. induction selected as [|x l IH]; [reflexivity|].
  cbn [omap list_omap]. fold (omap (fun mov_id => (fun r => (r, 12%nat, VStr Regularizado))
                                      <$> row_of Setor.id df1 mov_id) l).
  fold (omap (fun mov_id => (fun r => (r, 12%nat, VStr Regularizado))
                <$> row_of Setor.id df2 mov_id) l).
  now rewrite IH, (row_of_fmap Setor.id df1), (row_of_fmap Setor.id df2), H.
Qed.

Lemma regularizado_nao_vazio : Regularizado <> "".
Proof. discriminate. Qed.

(** C9. On a session whose sector table is the one loaded from the
    sheet, regularizing a selection a second time leaves the store as
    the first time left it.  A row already "Regularizado" is left as it
    is, a row changes only if a selected id resolves to it and it was not
    "Regularizado", and then only in its status cell; every selected id
    that resolves ends "Regularizado", and a selection with an id that
    resolves ends with the success box, also when that id was
    regularized before. *)
Theorem C9_regularize_is_idempotent (selected : list Z) (s : State) :
  sincronizado s ->
  let s1 := (marcar_como_regularizado selected s).2 in
  let s2 := (marcar_como_regularizado selected s1).2 in
  store s2 = store s1
  /\ (forall j row, mov_setores_sheet s !! j = Some row ->
        status_da_linha row = Regularizado -> mov_setores_sheet s1 !! j = Some row)
  /\ (forall j row, mov_setores_sheet s !! j = Some row ->
        mov_setores_sheet s1 !! j = Some row
        \/ (status_da_linha row <> Regularizado
            /\ mov_setores_sheet s1 !! j = Some (set_in_row 12 Regularizado row)
            /\ exists x, x ∈ selected
                         /\ row_of Setor.id (mov_setores_df s) x = Some (j + 2)%nat))
  /\ (forall x r, x ∈ selected -> row_of Setor.id (mov_setores_df s) x = Some r ->
        (exists j row', r = (j + 2)%nat /\ mov_setores_sheet s1 !! j = Some row'
                        /\ status_da_linha row' = Regularizado)
        /\ (marcar_como_regularizado selected s).1 = Ret (showinfo "Sucesso")
        /\ (marcar_como_regularizado selected s1).1 = Ret (showinfo "Sucesso")).
Proof.
  intros Hsync s1 s2.
  destruct (marcar_efeito selected s Hsync) as (Hsh1 & He1 & Hm1 & Hsync1 & Hids1 & Hok1).
  fold s1 in Hsh1, He1, Hm1, Hsync1, Hids1.
  destruct (marcar_efeito selected s1 Hsync1) as (Hsh2 & He2 & Hm2 & _ & _ & Hok2).
  fold s2 in Hsh2, He2, Hm2.
  rewrite (updates_de_ids _ _ selected Hids1) in Hsh2, Hok2.
  pose proof (updates_de_bound (mov_setores_df s) selected) as HR.
  rewrite (sincronizado_length s Hsync) in HR.
  rewrite updates_de_forma in Hsh1, Hsh2, Hok1, Hok2.
  set (R := omap (row_of Setor.id (mov_setores_df s)) selected) in *.
  assert (Hlook : forall j, mov_setores_sheet s1 !! j
                            = marcada R Regularizado j <$> mov_setores_sheet s !! j).
  { intros j. rewrite Hsh1. now apply lookup_apply_cells. }
  split; [|split; [|split]].
  - unfold store. rewrite He2, Hm2, Hsh2, Hsh1.
    now rewrite (apply_cells_idemp Regularizado R _ HR).
  - intros j row Hrow Hst. rewrite Hlook, Hrow. cbn. f_equal. unfold marcada.
    destruct (bool_decide _); [|reflexivity].
    apply set_in_row_same; [lia|apply regularizado_nao_vazio|exact Hst].
  - intros j row Hrow. rewrite Hlook, Hrow. cbn. unfold marcada.
    destruct (bool_decide ((j + 2)%nat ∈ R)) eqn:Hin; [|now left].
    destruct (String.string_dec (status_da_linha row) Regularizado) as [Hst|Hst].
    + left. f_equal. apply set_in_row_same; [lia|apply regularizado_nao_vazio|exact Hst].
    + right. split; [exact Hst|]. split; [reflexivity|].
      apply bool_decide_eq_true in Hin. apply list_elem_of_omap in Hin as (x & Hx & Hr).
      exists x. auto.
  - intros x r Hx Hr.
    assert (HinR : r ∈ R) by (apply list_elem_of_omap; exists x; auto).
    assert (Hne : (fun r => (r, 12%nat, VStr Regularizado)) <$> R <> []).
    { intros Hnil. apply fmap_nil_inv in Hnil. rewrite Hnil in HinR. inversion HinR. }
    split; [|split; [exact (Hok1 Hne)|exact (Hok2 Hne)]].
    rewrite Forall_forall in HR. destruct (HR r HinR) as (j & -> & Hj).
    destruct (lookup_lt_is_Some_2 _ _ Hj) as [row Hrow].
    exists j, (set_in_row 12 Regularizado row). split; [reflexivity|].
    split.
    + rewrite Hlook, Hrow. cbn. unfold marcada. now rewrite bool_decide_eq_true_2.
    + unfold status_da_linha. apply cell_set_in_row_eq. lia.
Qed.

Lemma C9_twice_witness :
  let s1 := (marcar_como_regularizado [1%Z; 2%Z] sessao_setores).2 in
  let s2 := (marcar_como_regularizado [1%Z; 2%Z] s1).2 in
  store s2 = store s1
  /\ (status_da_linha <$> mov_setores_sheet sessao_setores)
     = [Pendente; Regularizado; Pendente]
  /\ (status_da_linha <$> mov_setores_sheet s1) = [Regularizado; Regularizado; Pendente]
  /\ mov_setores_sheet s1 !! 1%nat = mov_setores_sheet sessao_setores !! 1%nat.
Proof.
  intros s1 s2.
  destruct (C9_regularize_is_idempotent [1%Z; 2%Z] sessao_setores) as (H & _).
  - reflexivity.
  - split; [exact H|]. split; [reflexivity|]. split; vm_compute; reflexivity.
Defined.

(** * Further properties of the code *)

(** ** Looking a record up by id *)

(** X1. [_find_sheet_row_index_by_id] raises [KeyError] exactly on a
    table without rows; on a table with rows it returns [None] exactly
    when no record has the id, and otherwise the sheet row (index plus
    2, so never the header) of the first record with that id. *)
Theorem X1_find_first_row_with_id {A} (id_of : A -> Z) (df : list A) (record_id : Z) :
  match _find_sheet_row_index_by_id id_of df record_id with
  | Raise e => e = KeyError /\ df = []
  | Ret None => df <> [] /\ forall e, e ∈ df -> id_of e <> record_id
  | Ret (Some r) =>
      exists i e, r = (i + 2)%nat /\ df !! i = Some e /\ id_of e = record_id
                  /\ forall j e', df !! j = Some e' -> (j < i)%nat -> id_of e' <> record_id
  end.
Proof.
  unfold _find_sheet_row_index_by_id. destruct df as [|e0 df]; [auto|].
  destruct (list_find _ (e0 :: df)) as [[i e]|] eqn:E; cbn [fmap option_fmap option_map].
  - apply list_find_Some in E as (Hi & He & Hfirst). exists i, e. auto.
  - split; [discriminate|]. intros e He. eapply list_find_None in E.
    rewrite Forall_forall in E. now apply E.
Qed.

(** X2. The items the movement window gets from the selection are rows
    of the loaded table whose id is selected, in the order of the table,
    and each of them resolves to a sheet row; an empty selection gives no
    item. *)
Theorem X2_selected_items_resolve (df : list Equip.t) (tree_ids : list Z) :
  get_data_from_tree_selection df tree_ids `sublist_of` df
  /\ Forall (fun item => item ∈ df /\ Equip.id item ∈ tree_ids
                         /\ exists r, _find_sheet_row_index_by_id Equip.id df (Equip.id item)
                                      = Ret (Some r))
       (get_data_from_tree_selection df tree_ids)
  /\ get_data_from_tree_selection df [] = [].
Proof.
  split; [|split; [|reflexivity]].
  - unfold get_data_from_tree_selection. destruct tree_ids; [apply sublist_nil_l|].
    apply sublist_filter.
  - apply Forall_forall. intros item Hin.
    assert (Hdf : item ∈ df /\ Equip.id item ∈ tree_ids).
    { unfold get_data_from_tree_selection in Hin. destruct tree_ids; [inversion Hin|].
      apply list_elem_of_filter in Hin. tauto. }
    destruct Hdf as [Hdf Hid]. split; [exact Hdf|]. split; [exact Hid|].
    unfold _find_sheet_row_index_by_id. destruct df as [|e0 df']; [inversion Hdf|].
    destruct (list_find _ (e0 :: df')) as [[i e]|] eqn:E; cbn [fmap option_fmap option_map].
    + eauto.
    + exfalso. eapply list_find_None in E. rewrite Forall_forall in E.
      exact (E item Hdf eq_refl).
Qed.

(** ** Reloading the tables *)




(** ** Adding an equipment *)






(** ** Ids grow *)











(** ** Editing an equipment *)







(** ** Registering a transfer between sectors *)

Lemma campos_patrimonio_box (f : FormSetor) (box : dialog) :
  campos_patrimonio f = inl box -> exists t, box = showwarning t.
Proof.
  unfold campos_patrimonio. destruct (String.eqb (f_tipo_equip f) Kit).
  - destruct (existsb blank _); [|discriminate]. intros [= <-]. eauto.
  - destruct (blank (f_patrimonio f)); [intros [= <-]; eauto|].
    destruct (_ && blank (f_servicetag f)); [intros [= <-]; eauto|discriminate].
Qed.

(** X7. A transfer whose origin and destination sectors are the same is
    always refused, whatever the other fields hold: the operation ends
    with a warning and the state, the sector sheet included, is as
    before. *)
Theorem X7_same_sector_is_refused (f : FormSetor) (s : State) :
  f_origem f = f_destino f ->
  exists t, registrar_movimentacao_setor f s = (Ret (showwarning t), s).
Proof.
  intros Hsame. unfold registrar_movimentacao_setor.
  destruct (campos_patrimonio f) as [box|[p st]] eqn:E.
  - destruct (campos_patrimonio_box f box E) as [t ->]. eauto.
  - destruct (existsb blank _); [eauto|]. rewrite Hsame, String.eqb_refl. eauto.
Qed.

Lemma X7_same_sector_witness :
  exists t, registrar_movimentacao_setor form_mesmo_setor sessao_setores
            = (Ret (showwarning t), sessao_setores).
Proof. apply X7_same_sector_is_refused. reflexivity. Defined.



(** ** Deleting equipment *)

Lemma sem_linhas_none {A} (D : list nat) (l : list A) : forall k,
  (forall x, x ∈ D -> (x < k)%nat) -> sem_linhas k D l = l.
Proof.
  induction l as [|y r IH]; intros k H; cbn [sem_linhas]; [reflexivity|].
  rewrite bool_decide_eq_false_2 by (intros Hin; specialize (H k Hin); lia).
  f_equal. apply IH. intros x Hx. specialize (H x Hx). lia.
Qed.

Lemma sem_linhas_delete {A} (D : list nat) (l : list A) : forall k i,
  (forall x, x ∈ D -> (x < k + i)%nat) ->
  sem_linhas k D (delete i l) = sem_linhas k ((k + i)%nat :: D) l.
Proof.
  induction l as [|y r IH]; intros k i H; [reflexivity|]. destruct i as [|i].
  - change (delete 0%nat (y :: r)) with r. cbn [sem_linhas]. rewrite Nat.add_0_r in *.
    rewrite bool_decide_eq_true_2 by left.
    rewrite sem_linhas_none by exact H. symmetry. apply sem_linhas_none.
    intros x [->|Hx]%elem_of_cons; [lia|]. specialize (H x Hx). lia.
  - change (delete (S i) (y :: r)) with (y :: delete i r). cbn [sem_linhas].
    rewrite (bool_decide_ext (k ∈ (k + S i)%nat :: D) (k ∈ D))
      by (rewrite elem_of_cons; split; [intros [?|?]; [lia|assumption]|auto]).
    rewrite (IH (S k) i) by (intros x Hx; specialize (H x Hx); lia).
    replace (S k + i)%nat with (k + S i)%nat by lia. reflexivity.
Qed.

(** Deleting sheet rows from the bottom up removes exactly those rows. *)
Lemma delete_descending (D : list nat) : forall sh : list (list string),
  StronglySorted (fun a b => (b < a)%nat) D -> Forall (fun r => (2 <= r)%nat) D ->
  foldl (fun sh r => delete_row r sh) sh D = sem_linhas 2 D sh.
Proof.
  induction D as [|d D IH]; intros sh Hs Hge; cbn [foldl].
  - symmetry. apply sem_linhas_none. intros x Hx. inversion Hx.
  - apply StronglySorted_inv in Hs as [Hs Hd]. apply Forall_cons in Hge as [Hd2 Hge].
    destruct d as [|[|i]]; try lia. cbn [delete_row].
    rewrite IH by assumption. rewrite sem_linhas_delete; [reflexivity|].
    intros x Hx. rewrite Forall_forall in Hd. specialize (Hd x Hx). lia.
Qed.

#[export] Instance desc_total : Total desc.
Proof. intros a b. unfold desc. lia. Qed.

#[export] Instance desc_trans : Transitive desc.
Proof. intros a b c. unfold desc. lia. Qed.

Lemma sorted_reverse_strict (rows : list nat) :
  NoDup rows -> StronglySorted (fun a b => (b < a)%nat) (sorted_reverse rows).
Proof.
  intros Hnd. unfold sorted_reverse.
  assert (Hs : StronglySorted desc (merge_sort desc rows))
    by (apply StronglySorted_merge_sort; apply _).
  assert (Hn : NoDup (merge_sort desc rows)) by now rewrite merge_sort_Permutation.
  induction Hs as [|d D Hs IH Hd]; [constructor|].
  apply NoDup_cons in Hn as [Hnotin Hn]. constructor; [now apply IH|].
  apply Forall_forall. intros x Hx. rewrite Forall_forall in Hd. specialize (Hd x Hx).
  unfold desc in Hd. assert (x <> d) by (intros ->; contradiction). lia.
Qed.

Lemma sem_linhas_perm {A} (D D' : list nat) (l : list A) : forall k,
  D ≡ₚ D' -> sem_linhas k D l = sem_linhas k D' l.
Proof.
  intros k HP. revert k. induction l as [|y r IH]; intros k; cbn [sem_linhas]; [reflexivity|].
  rewrite (bool_decide_ext (k ∈ D) (k ∈ D')) by now rewrite HP. now rewrite IH.
Qed.

Lemma coletar_linha_run (selected : list Z) : forall acc s,
  equip_df s <> [] ->
  for_each coletar_linha acc selected s
  = (Ret (acc ++ omap (row_of Equip.id (equip_df s)) selected), s).
Proof.
  induction selected as [|x l IH]; intros acc s Hdf.
  - cbn. now rewrite app_nil_r.
  - cbn [for_each]. rewrite bind_run. unfold coletar_linha at 1. run_monad.
    unfold _find_sheet_row_index_by_id.
    destruct (equip_df s) as [|e0 df] eqn:E; [congruence|].
    fold (row_of Equip.id (e0 :: df) x). cbn [omap list_omap].
    fold (omap (row_of Equip.id (e0 :: df)) l).
    destruct (row_of Equip.id (e0 :: df) x) as [r|].
    + rewrite IH by (rewrite E; congruence). rewrite E, <- app_assoc. reflexivity.
    + rewrite IH by (rewrite E; congruence). rewrite E. reflexivity.
Qed.

Lemma delete_loop_run (D : list nat) : forall s,
  for_each (fun _ row_index => delete_rows Equipamentos row_index) tt D s
  = (Ret tt, set_sheet Equipamentos (foldl (fun sh r => delete_row r sh) (equip_sheet s) D) s).
Proof.
  induction D as [|d D IH]; intros s; cbn [for_each foldl].
  - destruct s; reflexivity.
  - rewrite bind_run. unfold delete_rows at 1, modify. rewrite IH.
    destruct s; reflexivity.
Qed.

Lemma row_of_inj {A} (id_of : A -> Z) (df : list A) (x y : Z) (r : nat) :
  row_of id_of df x = Some r -> row_of id_of df y = Some r -> x = y.
Proof.
  unfold row_of.
  destruct (list_find _ df) as [[i e]|] eqn:Ex; [|discriminate].
  destruct (list_find (fun r => id_of r = y) df) as [[j e']|] eqn:Ey; [|discriminate].
  intros [= <-] [= Hij]. assert (j = i) by lia. subst j.
  apply list_find_Some in Ex as (Hi & <- & _). apply list_find_Some in Ey as (Hj & <- & _).
  congruence.
Qed.

Lemma NoDup_rows {A} (id_of : A -> Z) (df : list A) (selected : list Z) :
  NoDup selected -> NoDup (omap (row_of id_of df) selected).
Proof.
  induction 1 as [|x l Hx Hnd IH]; [constructor|]. cbn [omap list_omap].
  fold (omap (row_of id_of df) l).
  destruct (row_of id_of df x) as [r|] eqn:E; [|exact IH].
  constructor; [|exact IH]. intros Hin. apply list_elem_of_omap in Hin as (y & Hy & Hr).
  assert (x = y) by (eapply row_of_inj; eassumption). subst y. contradiction.
Qed.

Lemma rows_ge_2 {A} (id_of : A -> Z) (df : list A) (selected : list Z) :
  Forall (fun r => (2 <= r)%nat) (omap (row_of id_of df) selected).
Proof.
  apply Forall_forall. intros r (x & _ & Hr)%list_elem_of_omap.
  apply row_of_bound in Hr as (i & -> & _). lia.
Qed.

(** X9. [excluir_equipamento] leaves the state as it is when nothing
    is selected (a warning) or when the user does not confirm.  When
    distinct ids are selected and confirmed, deleting the resolved sheet
    rows from the bottom up removes from the equipment sheet exactly the
    rows those ids resolve to (ids that resolve to no row delete
    nothing), keeps the others in their order, and leaves the movement
    and sector sheets, the history included, untouched. *)
Theorem X9_delete_removes_exactly_the_resolved_rows (selected : list Z) (s : State) :
  excluir_equipamento [] true s = (Ret (Some (showwarning "Nenhum Item Selecionado")), s)
  /\ (selected <> [] -> excluir_equipamento selected false s = (Ret None, s))
  /\ (selected <> [] -> equip_df s <> [] -> NoDup selected ->
      let run := excluir_equipamento selected true s in
      let D := omap (row_of Equip.id (equip_df s)) selected in
      equip_sheet run.2 = sem_linhas 2 D (equip_sheet s)
      /\ sem_linhas 2 D (equip_sheet s) `sublist_of` equip_sheet s
      /\ mov_sheet run.2 = mov_sheet s
      /\ mov_setores_sheet run.2 = mov_setores_sheet s
      /\ equip_df run.2 = Equip.project <$> equip_sheet run.2).
Proof.
  split; [reflexivity|]. split; [destruct selected; [congruence|reflexivity]|].
  intros Hne Hdf Hnd run D. unfold run, excluir_equipamento.
  destruct selected as [|x l]; [congruence|].
  rewrite bind_run, coletar_linha_run by exact Hdf. cbn [app]. fold D.
  rewrite bind_run, delete_loop_run.
  rewrite delete_descending
    by (first [apply sorted_reverse_strict; now apply NoDup_rows
              |unfold sorted_reverse; rewrite merge_sort_Permutation; apply rows_ge_2]).
  rewrite (sem_linhas_perm (sorted_reverse D) D)
    by (unfold sorted_reverse; apply merge_sort_Permutation).
  rewrite bind_run, refresh_dataframes_run.
  assert (Hsub : forall (k : nat) (sh : list (list string)), sem_linhas k D sh `sublist_of` sh).
  { intros k sh. revert k. induction sh as [|y r IH]; intros k; cbn [sem_linhas]; [constructor|].
    destruct (bool_decide _); [apply sublist_cons, IH|apply sublist_skip, IH]. }
  destruct (project_setores _); destruct s; cbn; repeat split; auto.
Qed.

Lemma X9_delete_two_witness :
  let run := excluir_equipamento [5%Z; 1%Z; 9%Z] true sessao_exemplo in
  (cell 2 <$> equip_sheet run.2) = ["Teclado"]
  /\ mov_sheet run.2 = historico_exemplo.
Proof.
  intros run.
  destruct (X9_delete_removes_exactly_the_resolved_rows [5%Z; 1%Z; 9%Z] sessao_exemplo)
    as (_ & _ & H).
  destruct H as (Hsh & _ & Hm & _).
  - discriminate.
  - discriminate.
  - repeat constructor; cbn; rewrite ?elem_of_cons, ?elem_of_nil; intuition discriminate.
  - fold run in Hsh, Hm. split; [rewrite Hsh; reflexivity|rewrite Hm; reflexivity].
Defined.

(** ** The first refused item decides *)





(** ** One request for a regularization *)

(** X11. [marcar_como_regularizado] ends with a warning on an empty
    selection, raises [KeyError] on a sector table without rows, and
    ends with the "Erro" box when no selected id resolves, in each case
    leaving the state as it was.  Otherwise its only write is one batch
    request that sets the status cell (column 12) of a resolved row to
    "Regularizado", one cell per selected id that resolves; the equipment
    and movement sheets are untouched. *)
Theorem X11_regularize_is_one_batch_request (selected : list Z) (s : State) :
  let run := marcar_como_regularizado selected s in
  match selected, mov_setores_df s with
  | [], _ => run = (Ret (showwarning "Nenhum Item Selecionado"), s)
  | _ :: _, [] => run = (Raise KeyError, s)
  | _ :: _, _ :: _ =>
      match updates_de (mov_setores_df s) selected with
      | [] => run = (Ret (showerror "Erro"), s)
      | U =>
          writes (new_calls s run.2) = [BatchUpdate MovSetores U]
          /\ U = (fun r => (r, 12%nat, VStr Regularizado))
                 <$> omap (row_of Setor.id (mov_setores_df s)) selected
          /\ mov_setores_sheet run.2 = apply_cells U (mov_setores_sheet s)
          /\ equip_sheet run.2 = equip_sheet s /\ mov_sheet run.2 = mov_sheet s
      end
  end.
Proof.
  intros run. unfold run, marcar_como_regularizado.
  destruct selected as [|x l]; [reflexivity|].
  destruct (mov_setores_df s) as [|e0 df] eqn:E.
  { now rewrite bind_run, coletar_sem_tabela by exact E. }
  rewrite bind_run, coletar_run by (rewrite E; congruence). cbn [app]. rewrite E.
  pose proof (updates_de_forma (e0 :: df) (x :: l)) as Hforma.
  remember (updates_de (e0 :: df) (x :: l)) as U eqn:EU.
  destruct U as [|u us]; [reflexivity|].
  run_monad. rewrite refresh_dataframes_run.
  cbn [get_sheet set_sheet add_log mov_setores_sheet equip_sheet mov_sheet api_log].
  destruct (project_setores _); cbn [fst snd recarregado mov_setores_sheet equip_sheet mov_sheet].
  - split; [|repeat split; auto].
    match goal with
    | |- writes (new_calls s ?s') = _ =>
        rewrite (new_calls_app s s'
                   [BatchUpdate MovSetores (u :: us); GetAllRecords Equipamentos;
                    GetAllRecords Movimentacoes; GetAllRecords MovSetores])
          by (cbn [recarregado api_log add_log]; rewrite <- ?app_assoc; reflexivity)
    end.
    reflexivity.
  - split; [|repeat split; auto].
    match goal with
    | |- writes (new_calls s ?s') = _ =>
        rewrite (new_calls_app s s'
                   [BatchUpdate MovSetores (u :: us); GetAllRecords Equipamentos;
                    GetAllRecords Movimentacoes; GetAllRecords MovSetores])
          by (cbn [recarregado api_log add_log]; rewrite <- ?app_assoc; reflexivity)
    end.
    reflexivity.
Qed.
